(** * The order-creation endpoint of 3rd-client, [api/create-order.js]

    A shallow embedding of the first [handler] of the file (lines 4-184:
    the one that reads [req.body] and answers through [res.json]) and the
    properties of its request/response behaviour. The file holds a second
    [handler] (lines 186-343) that calls helpers defined nowhere in it
    ([setJson], [parseBody], [validateAmount], ...); it is not modelled.

    The development has five parts:
    - [JS]: the JavaScript values the handler manipulates, with the
      operators and built-ins it applies to them;
    - [Eff]: completions (normal, return, throw), the response object and
      the trace of calls into the Razorpay package;
    - the handler itself, written statement by statement after the source;
    - the vocabulary in which its behaviour is stated;
    - the lemmas that step through the handler, and the theorems. *)

From Stdlib Require Import QArith Qcanon Qround.
From stdpp Require Import base numbers strings gmap pretty.

#[local] Set Warnings "-register-all".
#[local] Open Scope Z_scope.

(** ** JavaScript values *)

Module JS.

(** A Number is NaN, an infinity, or a finite value. Finite values are kept
    as canonical rationals ([Qc]): every finite double is one, and the
    handler's arithmetic ([<], [>], [Number.isInteger], [Math.round]) is
    exact on them. [-0] is identified with [0]; the handler cannot tell them
    apart since both are falsy and it rejects a falsy amount first. *)
Inductive number :=
| NaN
| Infinity (negative : bool)
| Finite (q : Qc).

Definition int (z : Z) : number := Finite (Qc_of_Z z).

(** Values as [JSON.parse] and the Razorpay client produce them. Objects
    are finite maps from property names to values. *)
Inductive value :=
| VUndefined
| VNull
| VBool (b : bool)
| VNum (n : number)
| VStr (s : string)
| VArr (elems : list value)
| VObj (props : gmap string value).

Definition num (z : Z) : value := VNum (int z).

(** Object literal [{ k1: v1, ..., kn: vn }]: properties are written left to
    right, so a later duplicate key overwrites an earlier one. *)
Definition object (kvs : list (string * value)) : value :=
  VObj (foldl (λ o kv, <[kv.1 := kv.2]> o) ∅ kvs).

(** [ToBoolean]. *)
Definition truthy (v : value) : bool :=
  match v with
  | VUndefined | VNull => false
  | VBool b => b
  | VNum NaN => false
  | VNum (Infinity _) => true
  | VNum (Finite q) => negb (bool_decide (q = 0%Qc))
  | VStr s => negb (bool_decide (s = ""))
  | VArr _ | VObj _ => true
  end.

(** [a || b] and [a && b] on values (both operands here are side-effect
    free, so evaluating [b] eagerly is harmless). *)
Definition log_or (a b : value) : value := if truthy a then a else b.
Definition log_and (a b : value) : value := if truthy a then b else a.

Definition nullish (v : value) : bool :=
  match v with VUndefined | VNull => true | _ => false end.

(** [v[k]] for a [v] that is not nullish. None of the property names the
    handler reads is defined on [Object.prototype], on a primitive wrapper
    or on [Array.prototype], so reading them yields an own property of an
    object and [undefined] off anything else. *)
Definition prop (v : value) (k : string) : value :=
  match v with
  | VObj o => default VUndefined (o !! k)
  | _ => VUndefined
  end.

(** [v?.k] *)
Definition opt_prop (v : value) (k : string) : value :=
  if nullish v then VUndefined else prop v k.

(** Destructuring default: [{ k = d } = o]. *)
Definition prop_default (v : value) (k : string) (d : value) : value :=
  match prop v k with VUndefined => d | x => x end.

(** [===] on numbers and [SameValueZero] differ on NaN only. *)
Definition number_eq (a b : number) : bool :=
  match a, b with
  | Infinity s, Infinity t => bool_decide (s = t)
  | Finite p, Finite q => bool_decide (p = q)
  | _, _ => false
  end.

(** [SameValueZero], the comparison of [Array.prototype.includes]. Objects
    and arrays compare by identity; a value read from the request is never
    the same object as a literal of the handler, hence [false]. *)
Definition same_value_zero (a b : value) : bool :=
  match a, b with
  | VUndefined, VUndefined | VNull, VNull => true
  | VBool x, VBool y => bool_decide (x = y)
  | VNum NaN, VNum NaN => true
  | VNum x, VNum y => number_eq x y
  | VStr x, VStr y => bool_decide (x = y)
  | _, _ => false
  end.

(** [arr.includes(v)] *)
Definition includes (arr : list value) (v : value) : bool :=
  existsb (λ x, same_value_zero x v) arr.

(** [ToNumber] on the primitives that need no parsing. Strings and objects
    would go through [StringToNumber] and [ToPrimitive], which are not
    modelled: they are given [NaN]. The handler only coerces a value that
    [Number.isInteger] has accepted, which is a Number already. *)
Definition ToNumber (v : value) : number :=
  match v with
  | VNum n => n
  | VNull => int 0
  | VBool b => if b then int 1 else int 0
  | _ => NaN
  end.

Definition number_lt (a b : number) : bool :=
  match a, b with
  | NaN, _ | _, NaN => false
  | Infinity s, Infinity t => s && negb t
  | Infinity s, Finite _ => s
  | Finite _, Infinity t => negb t
  | Finite p, Finite q => bool_decide (p < q)%Qc
  end.

(** [a < b] and [a > b] with numeric operands. *)
Definition lt (a b : value) : bool := number_lt (ToNumber a) (ToNumber b).
Definition gt (a b : value) : bool := number_lt (ToNumber b) (ToNumber a).

(** [Number.isInteger(v)]: a finite Number with no fractional part. *)
Definition Number_isInteger (v : value) : bool :=
  match v with
  | VNum (Finite q) => bool_decide (Qden (this q) = 1%positive)
  | _ => false
  end.

(** [Math.round]: the nearest integer, ties towards +infinity. *)
Definition number_round (n : number) : number :=
  match n with
  | Finite q => int (Qfloor (this q + (1 # 2)))
  | _ => n
  end.

Definition Math_round (v : value) : value := VNum (number_round (ToNumber v)).

(** [String.prototype.toUpperCase] on the ASCII letters; other bytes are
    left as they are (the mapping of non-ASCII code points is not
    modelled). *)
Definition upper_ascii (c : Ascii.ascii) : Ascii.ascii :=
  let n := Ascii.N_of_ascii c in
  if ((97 <=? n) && (n <=? 122))%N then Ascii.ascii_of_N (n - 32) else c.

Fixpoint toUpperCase (s : string) : string :=
  match s with
  | EmptyString => EmptyString
  | String c s' => String (upper_ascii c) (toUpperCase s')
  end.

(** [s.startsWith(p)] *)
Definition startsWith (s p : string) : bool := String.prefix p s.

(** [s.substr(start, len)] for [start] within or past the string. *)
Definition substr (s : string) (start len : nat) : string :=
  String.substring start len s.

(** Own enumerable properties copied by an object spread [{ ...v }]:
    those of an object, the indexed elements of an array, the indexed
    characters of a string (bytes here, UTF-16 units in JavaScript),
    nothing for the other values. *)
Definition indexed (vs : list value) : gmap string value :=
  list_to_map (imap (λ i v, (pretty i, v)) vs).

Fixpoint chars (s : string) : list value :=
  match s with
  | EmptyString => []
  | String c s' => VStr (String c EmptyString) :: chars s'
  end.

Definition own_props (v : value) : gmap string value :=
  match v with
  | VObj o => o
  | VArr l => indexed l
  | VStr s => indexed (chars s)
  | _ => ∅
  end.

(** [{ ...target, ...v }]: the properties of [v] are written over those
    already in [target]. *)
Definition spread (target : gmap string value) (v : value)
  : gmap string value :=
  own_props v ∪ target.

(** The [TypeError] V8 raises on a property read off [undefined]/[null]. *)
Definition TypeError (v : value) (k : string) : value :=
  object [("name", VStr "TypeError");
          ("message",
           VStr ("Cannot read properties of "
                 +:+ (if v is VNull then "null" else "undefined")
                 +:+ " (reading '" +:+ k +:+ "')"))].

(** The [TypeError] of calling a method the receiver does not have. *)
Definition NotAFunction (what : string) : value :=
  object [("name", VStr "TypeError");
          ("message", VStr (what +:+ " is not a function"))].

End JS.

(** ** Effects: completions, the response, the calls into the client *)

Module Eff.
Import JS.

(** What [res] has been told so far. [statusCode] is whatever value was
    handed to [res.status]; a fresh response carries 200. *)
Inductive sent :=
| NotSent
| Ended                    (* [res.end()]: no body *)
| Json (body : value).     (* [res.json(body)] *)

Record response := Response {
  headers : gmap string string;
  statusCode : value;
  payload : sent
}.

(** Calls into the Razorpay package, in program order. *)
Inductive event :=
| NewRazorpay (options : value)       (* [new Razorpay(options)] *)
| OrdersCreate (options : value).     (* [razorpay.orders.create(options)] *)

Record state := State {
  res : response;
  trace : list event
}.

Definition initial : state :=
  State (Response ∅ (num 200) NotSent) [].

(** How a statement list ends: it runs to its end, it executes a [return]
    (the returned value, [res] itself, is of no use to the caller and is
    not kept), or it throws a value. *)
Inductive completion (A : Type) :=
| Normal (a : A)
| Return
| Throw (e : value).
Arguments Normal {A} a.
Arguments Return {A}.
Arguments Throw {A} e.

Definition M (A : Type) : Type := state → completion A * state.

Definition ret {A} (a : A) : M A := λ s, (Normal a, s).

Definition bind {A B} (k : A → M B) (m : M A) : M B :=
  λ s, match m s with
       | (Normal a, s') => k a s'
       | (Return, s') => (Return, s')
       | (Throw e, s') => (Throw e, s')
       end.

#[global] Instance M_ret : MRet M := @ret.
#[global] Instance M_bind : MBind M := @bind.

Definition throw {A} (e : value) : M A := λ s, (Throw e, s).

(** [return m;] *)
Definition return_ {A B} (m : M A) : M B :=
  λ s, match m s with
       | (Normal _, s') | (Return, s') => (Return, s')
       | (Throw e, s') => (Throw e, s')
       end.

(** [try { m } catch (e) { h e }]; a [return] inside [m] leaves the
    function, the effects of [m] up to the throw are kept. *)
Definition try_catch {A} (m : M A) (h : value → M A) : M A :=
  λ s, match m s with
       | (Throw e, s') => h e s'
       | r => r
       end.

(** [if (c) { m }] *)
Definition when (c : bool) (m : M unit) : M unit :=
  if c then m else ret tt.

Definition modify (f : state → state) : M unit := λ s, (Normal tt, f s).

Definition emit (ev : event) : M unit :=
  modify (λ s, State (res s) (trace s ++ [ev])).

(** [res.setHeader(k, v)], [res.status(c)], [res.json(b)], [res.end()] *)
Definition setHeader (k v : string) : M unit :=
  modify (λ s, State (Response (<[k := v]> (headers (res s)))
                               (statusCode (res s)) (payload (res s)))
                     (trace s)).

Definition status (c : value) : M unit :=
  modify (λ s, State (Response (headers (res s)) c (payload (res s)))
                     (trace s)).

Definition json (b : value) : M unit :=
  modify (λ s, State (Response (headers (res s)) (statusCode (res s)) (Json b))
                     (trace s)).

Definition end_ : M unit :=
  modify (λ s, State (Response (headers (res s)) (statusCode (res s)) Ended)
                     (trace s)).

(** [v.k] as an expression: a [TypeError] when [v] is undefined or null. *)
Definition get (v : value) (k : string) : M value :=
  if nullish v then throw (TypeError v k) else ret (prop v k).

(** [v.toUpperCase()] *)
Definition call_toUpperCase (v : value) : M value :=
  match v with
  | VStr s => ret (VStr (toUpperCase s))
  | VUndefined | VNull => throw (TypeError v "toUpperCase")
  | _ => throw (NotAFunction "currency.toUpperCase")
  end.

End Eff.


Import JS Eff.

(** ** One invocation of the handler *)

Record request := Request {
  method : string;      (* [req.method] *)
  body : value          (* [req.body], parsed by the platform *)
}.

(** Everything the handler reads from outside the request. The Razorpay
    package is not part of the repository: its constructor and its
    [orders.create] are taken as given functions of their argument. *)
Record world := World {
  env : gmap string string;             (* [process.env] *)
  Razorpay_new : value → option value;  (* [Some e]: the constructor throws [e] *)
  orders_create : value → value + value;
                     (* [inl order]: resolves; [inr e]: rejects with [e] *)
  Date_now : Z;                         (* [Date.now()] *)
  Date_toISOString : string;            (* [new Date().toISOString()] *)
  Math_random_36 : string               (* [Math.random().toString(36)] *)
}.

Section Handler.
Context (w : world) (req : request).

(** [process.env.NAME] *)
Definition getenv (name : string) : value :=
  match env w !! name with
  | Some s => VStr s
  | None => VUndefined
  end.

(** [a === b] where [b] is a string literal. *)
Definition is_string (a : value) (lit : string) : bool :=
  match a with
  | VStr s => bool_decide (s = lit)
  | _ => false
  end.

Definition supportedCurrencies : list value :=
  [VStr "INR"; VStr "USD"; VStr "EUR"].

(** Lines 26-27: the credentials, the key identifier under either of its
    two names. *)
Definition keyId : value :=
  log_or (getenv "VITE_RAZORPAY_KEY_ID") (getenv "RAZORPAY_KEY_ID").
Definition keySecret : value := getenv "RAZORPAY_KEY_SECRET".

(** Line 62: the fields of [req.body || {}]. *)
Definition fields : value := log_or (body req) (object []).
Definition amount : value := prop fields "amount".
Definition currency : value := prop_default fields "currency" (VStr "INR").
Definition customer_details : value := prop fields "customer_details".
Definition order_metadata : value := prop fields "order_metadata".
Definition receipt : value := prop fields "receipt".
Definition notes : value := prop fields "notes".

(** Line 77: [!Number.isInteger(amount) || amount < 100 || amount > 15000000].
    [||] is [orb], which like it looks at its right operand only when the
    left one is false. *)
Definition out_of_bounds (v : value) : bool :=
  negb (Number_isInteger v) || lt v (num 100) || gt v (num 15000000).

(** Lines 46-60: the client is constructed under a [try] of its own. *)
Definition client_options : value :=
  object [("key_id", keyId); ("key_secret", keySecret)].

Definition initialize : M unit :=
  try_catch
    (emit (NewRazorpay client_options);;
     match Razorpay_new w client_options with
     | None => mret tt
     | Some initError => throw initError
     end)
    (λ initError,
       return_ (status (num 500);;
                json (object [("error", VStr "Payment gateway initialization failed");
                              ("code", VStr "RAZORPAY_INIT_FAILED")]))).

(** Line 99: [keyId?.startsWith('rzp_live') ? 'LIVE' : 'TEST'] *)
Definition environment : M value :=
  match keyId with
  | VStr s => mret (VStr (if startsWith s "rzp_live" then "LIVE" else "TEST"))
  | VUndefined | VNull => mret (VStr "TEST")
  | _ => throw (NotAFunction "keyId?.startsWith")
  end.

(** Line 95: the receipt generated when the caller gave none. *)
Definition generated_receipt : string :=
  "rcpt_" +:+ pretty (Date_now w) +:+ "_" +:+ substr (Math_random_36 w) 2 9.

(** Lines 92-114: the options handed to [orders.create]. *)
Definition orderOptions : M value :=
  let amount' := Math_round amount in
  currency' ← call_toUpperCase currency;
  let receipt' := log_or receipt (VStr generated_receipt) in
  env' ← environment;
  let notes0 : gmap string value :=
    <["created_at" := VStr (Date_toISOString w)]>
      (<["environment" := env']> (<["source" := VStr "3rd-client"]> ∅)) in
  let notes1 := spread notes0 notes in
  let notes2 := spread notes1 order_metadata in
  notes4 ←
    (if truthy customer_details then
       email ← get customer_details "email";
       notes3 ← (if truthy email then
                   email' ← get customer_details "email";
                   mret (<["customer_email" := email']> notes2)
                 else mret notes2);
       phone ← get customer_details "phone";
       (if truthy phone then
          phone' ← get customer_details "phone";
          mret (<["customer_phone" := phone']> notes3)
        else mret notes3)
     else mret notes2);
  mret (object [("amount", amount');
                ("currency", currency');
                ("receipt", receipt');
                ("payment_capture", num 1);
                ("notes", VObj notes4)]).

(** Lines 133-156: the [catch] of the order creation. *)
Definition order_failed (razorpayError : value) : M value :=
  get razorpayError "message";;
  get razorpayError "statusCode";;
  get razorpayError "error";;
  sc ← get razorpayError "statusCode";
  statusCode ← (if truthy sc then get razorpayError "statusCode"
                else mret (num 500));
  err ← get razorpayError "error";
  described ← (if truthy err then
                 err' ← get razorpayError "error"; get err' "description"
               else mret err);
  errorMessage ←
    (if truthy described then
       err' ← get razorpayError "error"; get err' "description"
     else
       msg ← get razorpayError "message";
       if truthy msg then get razorpayError "message"
       else mret (VStr "Failed to create payment order"));
  err'' ← get razorpayError "error";
  let code := log_or (opt_prop err'' "code") (VStr "RAZORPAY_ORDER_FAILED") in
  return_ (status statusCode;;
           json (object [("error", errorMessage); ("code", code)])).

(** Lines 124-157: [orders.create] is awaited under a [try] of its own;
    the log statement that follows it in the [try] reads four properties
    of the order. *)
Definition create_order (options : value) : M value :=
  try_catch
    (emit (OrdersCreate options);;
     order ← match orders_create w options with
             | inl order => mret order
             | inr e => throw e
             end;
     get order "id";;
     get order "amount";;
     get order "currency";;
     get order "status";;
     mret order)
    order_failed.

(** Lines 171-183: the [catch] at the handler boundary. *)
Definition unexpected (error : value) : M unit :=
  get error "message";;
  get error "stack";;
  message ← (if is_string (getenv "NODE_ENV") "development"
             then get error "message"
             else mret (VStr "An unexpected error occurred"));
  return_ (status (num 500);;
           json (object [("error", VStr "Internal server error");
                         ("code", VStr "UNEXPECTED_ERROR");
                         ("message", message)])).

(** Lines 91-169: the order is prepared, created and reported. *)
Definition place_order : M unit :=
  options ← orderOptions;
  order ← create_order options;
  id ← get order "id";
  amount' ← get order "amount";
  currency' ← get order "currency";
  receipt' ← get order "receipt";
  status' ← get order "status";
  created_at ← get order "created_at";
  let response := object [("id", id); ("amount", amount');
                          ("currency", currency'); ("receipt", receipt');
                          ("status", status'); ("created_at", created_at)] in
  return_ (status (num 200);; json response).

(** Lines 25-169: the body of the outer [try]. *)
Definition guarded : M unit :=
  when (negb (truthy keyId) || negb (truthy keySecret))
    (return_ (status (num 500);;
              json (object [("error", VStr "Payment gateway not configured. Please contact support.");
                            ("code", VStr "MISSING_CREDENTIALS")])));;
  initialize;;
  when (negb (truthy amount))
    (return_ (status (num 400);;
              json (object [("error", VStr "Amount is required")])));;
  when (out_of_bounds amount)
    (return_ (status (num 400);;
              json (object [("error", VStr "Invalid amount. Must be between ₹1 and ₹1,50,000 (in paise: 100-15000000)")])));;
  when (negb (includes supportedCurrencies currency))
    (return_ (status (num 400);;
              json (object [("error", VStr "Unsupported currency. Supported: INR, USD, EUR")])));;
  place_order.

(** Lines 4-184. *)
Definition handler : M unit :=
  setHeader "Access-Control-Allow-Origin" "*";;
  setHeader "Access-Control-Allow-Methods" "POST, OPTIONS";;
  setHeader "Access-Control-Allow-Headers" "Content-Type, Authorization";;
  when (bool_decide (method req = "OPTIONS"))
    (return_ (status (num 200);; end_));;
  when (negb (bool_decide (method req = "POST")))
    (return_ (status (num 405);;
              json (object [("error", VStr "Method not allowed")])));;
  try_catch guarded unexpected.

(** The invocation, from a fresh response. *)
Definition run : completion unit * state := handler initial.

End Handler.

(** ** The vocabulary of the statements *)

(** *** Reading the outcome of an invocation *)

Definition final (w : world) (req : request) : state := (run w req).2.

(** The options of the [orders.create] calls made, in order, and the
    receipts they carry. *)
Definition gateway_calls (s : state) : list value :=
  omap (λ ev, match ev with OrdersCreate o => Some o | _ => None end) (trace s).

Definition receipts_sent (w : world) (req : request) : list value :=
  (λ options, prop options "receipt") <$> gateway_calls (final w req).

(** The response headers once the three [setHeader] calls have run. *)
Definition cors_headers : gmap string string :=
  <["Access-Control-Allow-Headers" := "Content-Type, Authorization"]>
    (<["Access-Control-Allow-Methods" := "POST, OPTIONS"]>
       (<["Access-Control-Allow-Origin" := "*"]> ∅)).

Definition cors : state := State (Response cors_headers (num 200) NotSent) [].

(** The handler returned after [res.status(c)] and sending [p], having
    made the calls [evs]. *)
Definition responded (c : value) (p : sent) (evs : list event)
  : completion unit * state :=
  (Return, State (Response cors_headers c p) evs).

(** The state in which a stage answers [c] with the JSON body [b] after
    the calls [evs]. *)
Definition answered (c : value) (b : value) (evs : list event) : state :=
  State (Response cors_headers c (Json b)) evs.

(** [a], or [b] when [a] is not there: the later write, else the earlier. *)
Definition overrides {A} (a b : option A) : option A :=
  match a with Some x => Some x | None => b end.

(** *** Error bodies *)

Definition invalid_amount : value :=
  object [("error", VStr "Invalid amount. Must be between ₹1 and ₹1,50,000 (in paise: 100-15000000)")].

Definition unsupported_currency : value :=
  object [("error", VStr "Unsupported currency. Supported: INR, USD, EUR")].

(** What the [catch] of lines 133-156 computes from a thrown value that is
    neither undefined nor null. *)
Definition failure_status (e : value) : value :=
  if truthy (prop e "statusCode") then prop e "statusCode" else num 500.

Definition failure_message (e : value) : value :=
  if truthy (log_and (prop e "error") (prop (prop e "error") "description"))
  then prop (prop e "error") "description"
  else if truthy (prop e "message") then prop e "message"
  else VStr "Failed to create payment order".

Definition failure_code (e : value) : value :=
  log_or (opt_prop (prop e "error") "code") (VStr "RAZORPAY_ORDER_FAILED").

Definition failure_body (e : value) : value :=
  object [("error", failure_message e); ("code", failure_code e)].

(** The body of the 200 response: six properties read off the order. *)
Definition normalized (order : value) : value :=
  object [("id", prop order "id"); ("amount", prop order "amount");
          ("currency", prop order "currency"); ("receipt", prop order "receipt");
          ("status", prop order "status"); ("created_at", prop order "created_at")].

Definition order_fields : gset string :=
  {[ "id"; "amount"; "currency"; "receipt"; "status"; "created_at" ]}.

Section Vocabulary.
Context (w : world) (req : request).

(** The body the [catch] at the boundary sends for the exception [e]. *)
Definition unexpected_body (e : value) : value :=
  object [("error", VStr "Internal server error");
          ("code", VStr "UNEXPECTED_ERROR");
          ("message",
           if is_string (getenv w "NODE_ENV") "development"
           then prop e "message"
           else VStr "An unexpected error occurred")].

(** *** Validated requests *)

(** Credentials: what [!keyId || !keySecret] tests, and the constructor
    accepting them. *)
Definition configured : Prop :=
  truthy (keyId w) = true ∧ truthy (keySecret w) = true.

Definition credentials_ok : Prop :=
  configured ∧ Razorpay_new w (client_options w) = None.

(** A request that passes the three validations below the method gate. *)
Record accepted : Prop := Accepted {
  a_credentials : credentials_ok;
  a_amount_present : truthy (amount req) = true;
  a_amount_bounds : out_of_bounds (amount req) = false;
  a_currency : includes supportedCurrencies (currency req) = true
}.

(** A validated POST request. *)
Definition validated : Prop := method req = "POST" ∧ accepted.

(** *** The options sent to the gateway, as a value

    [orderOptions] is a computation because its property reads and method
    calls may throw. On a validated request none does, and it yields
    [sent_options] (lemma [orderOptions_normal]). *)

Definition environment_tag : string :=
  match keyId w with
  | VStr s => if startsWith s "rzp_live" then "LIVE" else "TEST"
  | _ => "TEST"
  end.

Definition fixed_notes : gmap string value :=
  <["created_at" := VStr (Date_toISOString w)]>
    (<["environment" := VStr environment_tag]>
       (<["source" := VStr "3rd-client"]> ∅)).

Definition merged_notes : gmap string value :=
  spread (spread fixed_notes (notes req)) (order_metadata req).

(** [customer_details && customer_details.k], as a condition. *)
Definition supplies (k : string) : bool :=
  truthy (customer_details req) && truthy (prop (customer_details req) k).

Definition sent_notes : gmap string value :=
  let n3 := if supplies "email"
            then <["customer_email" := prop (customer_details req) "email"]> merged_notes
            else merged_notes in
  if supplies "phone"
  then <["customer_phone" := prop (customer_details req) "phone"]> n3
  else n3.

Definition sent_receipt : value :=
  log_or (receipt req) (VStr (generated_receipt w)).

Definition sent_currency : value :=
  match currency req with
  | VStr s => VStr (toUpperCase s)
  | _ => VUndefined
  end.

Definition sent_options : value :=
  object [("amount", Math_round (amount req));
          ("currency", sent_currency);
          ("receipt", sent_receipt);
          ("payment_capture", num 1);
          ("notes", VObj sent_notes)].

(** *** States along the way *)

(** The client was constructed and nothing has been sent yet. *)
Definition constructed : state :=
  State (Response cors_headers (num 200) NotSent) [NewRazorpay (client_options w)].

(** [orders.create] was called with [options]. *)
Definition called (options : value) (s : state) : state :=
  State (res s) (trace s ++ [OrdersCreate options]).

(** The calls of a validated request. *)
Definition ordered : list event :=
  [NewRazorpay (client_options w); OrdersCreate sent_options].

End Vocabulary.

(** *** Sample invocations *)

(** A world with both credentials set and a gateway that answers with an
    order for what it is asked. *)
Definition sample_world : world :=
  World {[ "RAZORPAY_KEY_ID" := "rzp_test_1DP5mmOlF5G5ag";
           "RAZORPAY_KEY_SECRET" := "secret" ]}
        (λ _, None)
        (λ o, inl (object [("id", VStr "order_1"); ("entity", VStr "order");
                           ("amount", prop o "amount");
                           ("currency", prop o "currency");
                           ("receipt", prop o "receipt");
                           ("status", VStr "created");
                           ("created_at", num 169000000)]))
        1700000000000 "2023-11-14T22:13:20.000Z" "0.4fzyo82mvyr".

(** The order [sample_world] creates for [sample_request]. *)
Definition sample_order : value :=
  object [("id", VStr "order_1"); ("entity", VStr "order");
          ("amount", num 50000); ("currency", VStr "INR");
          ("receipt", VStr "rcpt_1700000000000_4fzyo82mv");
          ("status", VStr "created"); ("created_at", num 169000000)].

Definition post (body : list (string * value)) : request :=
  Request "POST" (object body).

Definition sample_request : request :=
  post [("amount", num 50000); ("currency", VStr "INR")].

(** [sample_world] with another draw of [Math.random]. *)
Definition drawing (random : string) : world :=
  World (env sample_world) (Razorpay_new sample_world)
        (orders_create sample_world)
        (Date_now sample_world) (Date_toISOString sample_world) random.

(** [sample_world] with a gateway that refuses every order with [e]. *)
Definition refusing_world (e : value) : world :=
  World (env sample_world) (Razorpay_new sample_world) (λ _, inr e)
        (Date_now sample_world) (Date_toISOString sample_world)
        (Math_random_36 sample_world).

(** [sample_world] with a constructor that throws. *)
Definition mandatory_key : value :=
  object [("message", VStr "`key_id` or `oauthToken` is mandatory")].

Definition unconstructible_world : world :=
  World (env sample_world) (λ _, Some mandatory_key)
        (orders_create sample_world)
        (Date_now sample_world) (Date_toISOString sample_world)
        (Math_random_36 sample_world).

(** [sample_world] without the key secret. *)
Definition keyless_world : world :=
  World {[ "RAZORPAY_KEY_ID" := "rzp_test_1DP5mmOlF5G5ag" ]}
        (Razorpay_new sample_world) (orders_create sample_world)
        (Date_now sample_world) (Date_toISOString sample_world)
        (Math_random_36 sample_world).

(** A gateway error: status 400, description "Invalid currency". *)
Definition invalid_currency : value :=
  object [("statusCode", num 400);
          ("error", object [("description", VStr "Invalid currency")])].

(** A request whose notes and order_metadata both define [campaign]. *)
Definition campaign_request : request :=
  post [("amount", num 50000);
        ("notes", object [("campaign", VStr "from notes");
                          ("table", VStr "7")]);
        ("order_metadata", object [("campaign", VStr "from metadata")]);
        ("customer_details", object [("email", VStr "a@b.c")])].

(** A request that leaves the receipt (and the currency) out. *)
Definition bare_request : request := post [("amount", num 50000)].

(** ** Numbers, as the validation sees them *)

Section Numbers.

Lemma Qc_integral (q : Qc) :
  Qden (this q) = 1%positive → q = Qc_of_Z (Qnum (this q)).
Proof.
  intros H. apply Qc_is_canon. destruct q as [[n d] Hq].
  cbn in *. subst d. reflexivity.
Qed.

(** [Number.isInteger] holds of the integers and of nothing else. *)
Lemma isInteger_spec v : Number_isInteger v = true ↔ ∃ z, v = num z.
Proof.
  split.
  - destruct v as [| | |[| |q]| | |]; try done. cbn.
    intros H%bool_decide_eq_true. exists (Qnum (this q)).
    unfold num, int. by rewrite <- Qc_integral.
  - by intros [z ->].
Qed.

Lemma num_inj a b : num a = num b → a = b.
Proof. by intros [= H]. Qed.

Lemma lt_num a b : lt (num a) (num b) = bool_decide (a < b).
Proof. cbn. apply bool_decide_ext. symmetry. apply Z2Qc_inj_lt. Qed.

Lemma gt_num a b : gt (num a) (num b) = bool_decide (b < a).
Proof. cbn. apply bool_decide_ext. symmetry. apply Z2Qc_inj_lt. Qed.

Lemma truthy_num z : truthy (num z) = bool_decide (z ≠ 0).
Proof.
  cbn. rewrite <- bool_decide_not. apply bool_decide_ext.
  assert (Q2Qc 0 = Qc_of_Z 0) as -> by by apply Qc_is_canon.
  by rewrite Z2Qc_inj_iff.
Qed.

(** The test of line 77 lets through the integers from 100 to 15000000 and
    nothing else. *)
Lemma out_of_bounds_num z : out_of_bounds (num z) = false ↔ 100 ≤ z ≤ 15000000.
Proof.
  unfold out_of_bounds. rewrite lt_num, gt_num.
  assert (Number_isInteger (num z) = true) as ->
    by (apply isInteger_spec; eauto).
  cbn [negb orb]. rewrite orb_false_iff, !bool_decide_eq_false. lia.
Qed.

Lemma out_of_bounds_spec v :
  out_of_bounds v = false ↔ ∃ z, v = num z ∧ 100 ≤ z ≤ 15000000.
Proof.
  split.
  - intros H. assert (Number_isInteger v = true) as [z ->]%isInteger_spec.
    { unfold out_of_bounds in H. by destruct (Number_isInteger v). }
    exists z. by rewrite <- out_of_bounds_num.
  - intros (z & -> & Hz). by rewrite out_of_bounds_num.
Qed.

(** Rounding an integer leaves it as it is. *)
Lemma Math_round_num z : Math_round (num z) = num z.
Proof.
  unfold Math_round, num. cbn [ToNumber int number_round]. do 3 f_equal.
  cbn. symmetry. apply Z.div_unique with 1; lia.
Qed.

(** [includes] on the list of line 84 is membership of one of its three
    strings. *)
Lemma supported_string v :
  includes supportedCurrencies v = true →
  v = VStr "INR" ∨ v = VStr "USD" ∨ v = VStr "EUR".
Proof.
  unfold includes, supportedCurrencies. cbn [existsb].
  destruct v; try done. cbn [same_value_zero].
  rewrite !orb_true_iff, !bool_decide_eq_true.
  intros [->|[->|[->|?]]]; auto. done.
Qed.

End Numbers.

(** ** Stepping through the monad *)

Section Steps.
Context {A B : Type}.

Lemma bind_normal (m : M A) (k : A → M B) s a s' :
  m s = (Normal a, s') → (m ≫= k) s = k a s'.
Proof. intros H. unfold mbind, M_bind, bind. by rewrite H. Qed.

Lemma bind_return (m : M A) (k : A → M B) s s' :
  m s = (Return, s') → (m ≫= k) s = (Return, s').
Proof. intros H. unfold mbind, M_bind, bind. by rewrite H. Qed.

Lemma bind_throw (m : M A) (k : A → M B) s e s' :
  m s = (Throw e, s') → (m ≫= k) s = (Throw e, s').
Proof. intros H. unfold mbind, M_bind, bind. by rewrite H. Qed.

End Steps.

Lemma truthy_defined v : truthy v = true → nullish v = false.
Proof. by destruct v. Qed.

(** ** The handler, stage by stage *)

Section Runs.
Context (w : world) (req : request).

(** *** The method gate *)

Lemma run_options :
  method req = "OPTIONS" → run w req = responded (num 200) Ended [].
Proof. intros H. unfold run, handler. by rewrite H. Qed.

Lemma run_not_allowed :
  method req ≠ "OPTIONS" → method req ≠ "POST" →
  run w req
  = responded (num 405) (Json (object [("error", VStr "Method not allowed")])) [].
Proof.
  intros H1 H2. unfold run, handler.
  by rewrite (bool_decide_eq_false_2 _ H1), (bool_decide_eq_false_2 _ H2).
Qed.

Lemma run_post :
  method req = "POST" →
  run w req = try_catch (guarded w req) (unexpected w) cors.
Proof. intros H. unfold run, handler. by rewrite H. Qed.

Lemma run_returned s :
  method req = "POST" → guarded w req cors = (Return, s) →
  run w req = (Return, s).
Proof. intros H Hg. rewrite run_post by done. unfold try_catch. by rewrite Hg. Qed.

Lemma run_thrown e s :
  method req = "POST" → guarded w req cors = (Throw e, s) →
  run w req = unexpected w e s.
Proof. intros H Hg. rewrite run_post by done. unfold try_catch. by rewrite Hg. Qed.

Lemma final_of_run c s : run w req = (c, s) → final w req = s.
Proof. unfold final. by intros ->. Qed.

Lemma final_returned s :
  method req = "POST" → guarded w req cors = (Return, s) → final w req = s.
Proof. intros H Hg. eapply final_of_run. by apply run_returned. Qed.

(** *** Credentials and validation *)

Lemma configured_dec : {configured w} + {¬ configured w}.
Proof.
  unfold configured.
  destruct (truthy (keyId w)), (truthy (keySecret w));
    (by left) || (right; intros [??]; done).
Qed.

Lemma guarded_missing_credentials :
  ¬ configured w →
  guarded w req cors
  = (Return,
     answered (num 500)
       (object [("error", VStr "Payment gateway not configured. Please contact support.");
                ("code", VStr "MISSING_CREDENTIALS")]) []).
Proof.
  intros H. unfold guarded.
  assert (negb (truthy (keyId w)) || negb (truthy (keySecret w)) = true) as ->;
    [|done].
  unfold configured in H.
  destruct (truthy (keyId w)), (truthy (keySecret w)); naive_solver.
Qed.

Lemma guarded_init_failed initError :
  configured w → Razorpay_new w (client_options w) = Some initError →
  guarded w req cors
  = (Return,
     answered (num 500)
       (object [("error", VStr "Payment gateway initialization failed");
                ("code", VStr "RAZORPAY_INIT_FAILED")])
       [NewRazorpay (client_options w)]).
Proof.
  intros [H1 H2] H. unfold guarded, initialize. rewrite H1, H2.
  unfold mbind, M_bind, bind, try_catch. cbn [negb orb when].
  by rewrite H.
Qed.

(** With the client constructed, the validations run from [constructed]. *)
Lemma guarded_constructed :
  credentials_ok w →
  guarded w req cors
  = (when (negb (truthy (amount req)))
       (return_ (status (num 400);;
                 json (object [("error", VStr "Amount is required")])));;
     when (out_of_bounds (amount req))
       (return_ (status (num 400);; json invalid_amount));;
     when (negb (includes supportedCurrencies (currency req)))
       (return_ (status (num 400);; json unsupported_currency));;
     place_order w req) (constructed w).
Proof.
  intros [[H1 H2] H]. unfold guarded, initialize. rewrite H1, H2.
  unfold mbind at 1 2, M_bind, bind at 1 2, try_catch. cbn [negb orb when].
  by rewrite H.
Qed.

Lemma guarded_amount_required :
  credentials_ok w → truthy (amount req) = false →
  guarded w req cors
  = (Return,
     answered (num 400) (object [("error", VStr "Amount is required")])
       [NewRazorpay (client_options w)]).
Proof. intros Hc H. rewrite guarded_constructed by done. by rewrite H. Qed.

Lemma guarded_amount_invalid :
  credentials_ok w → truthy (amount req) = true →
  out_of_bounds (amount req) = true →
  guarded w req cors
  = (Return,
     answered (num 400) invalid_amount [NewRazorpay (client_options w)]).
Proof.
  intros Hc H1 H2. rewrite guarded_constructed by done. by rewrite H1, H2.
Qed.

Lemma guarded_currency_unsupported :
  credentials_ok w → truthy (amount req) = true →
  out_of_bounds (amount req) = false →
  includes supportedCurrencies (currency req) = false →
  guarded w req cors
  = (Return,
     answered (num 400) unsupported_currency [NewRazorpay (client_options w)]).
Proof.
  intros Hc H1 H2 H3. rewrite guarded_constructed by done.
  by rewrite H1, H2, H3.
Qed.

Lemma guarded_accepted :
  accepted w req → guarded w req cors = place_order w req (constructed w).
Proof.
  intros [Hc H1 H2 H3]. rewrite guarded_constructed by done.
  by rewrite H1, H2, H3.
Qed.

(** *** The order is prepared *)

Lemma getenv_string name :
  truthy (getenv w name) = true → ∃ s, getenv w name = VStr s.
Proof. unfold getenv. destruct (env w !! name); [eauto | done]. Qed.

Lemma keyId_string : truthy (keyId w) = true → ∃ s, keyId w = VStr s.
Proof.
  unfold keyId, log_or.
  destruct (truthy (getenv w "VITE_RAZORPAY_KEY_ID")) eqn:E; intros H;
    by apply getenv_string.
Qed.

Lemma orderOptions_normal s :
  truthy (keyId w) = true →
  includes supportedCurrencies (currency req) = true →
  orderOptions w req s = (Normal (sent_options w req), s).
Proof.
  intros [k Hk]%keyId_string Hc.
  assert (∃ c, currency req = VStr c) as [c Hcur].
  { destruct (supported_string _ Hc) as [H|[H|H]]; eauto. }
  unfold orderOptions, sent_options, sent_currency, sent_receipt, sent_notes,
    supplies, merged_notes, fixed_notes, environment_tag, environment.
  rewrite Hcur, Hk. cbn [call_toUpperCase].
  unfold mbind, M_bind, bind. cbn [mret M_ret ret].
  destruct (truthy (customer_details req)) eqn:Hcd; [|done].
  apply truthy_defined in Hcd. unfold get. rewrite Hcd.
  cbn [mret M_ret ret andb].
  destruct (truthy (prop (customer_details req) "email"));
    destruct (truthy (prop (customer_details req) "phone")); done.
Qed.

(** *** The order is created, or not *)

Lemma order_failed_defined e s :
  nullish e = false →
  order_failed e s
  = (Return,
     State (Response (headers (res s)) (failure_status e)
                     (Json (failure_body e)))
           (trace s)).
Proof.
  intros He. unfold order_failed, failure_body, failure_status,
    failure_message, failure_code, log_and.
  unfold mbind, M_bind, bind, get. rewrite He. cbn [mret M_ret ret].
  destruct (truthy (prop e "statusCode")); cbn [mret M_ret ret];
    (destruct (truthy (prop e "error")) eqn:Herr;
       [ rewrite (truthy_defined _ Herr); cbn [mret M_ret ret];
         destruct (truthy (prop (prop e "error") "description"))
       | cbn [mret M_ret ret]; rewrite ?Herr ]);
    try done; destruct (truthy (prop e "message")); done.
Qed.

Lemma order_failed_nullish e s :
  nullish e = true → order_failed e s = (Throw (TypeError e "message"), s).
Proof.
  intros He. unfold order_failed, mbind, M_bind, bind, get. by rewrite He.
Qed.

Lemma create_order_resolved options order s :
  orders_create w options = inl order → nullish order = false →
  create_order w options s = (Normal order, called options s).
Proof.
  intros H Ho. unfold create_order, try_catch, mbind, M_bind, bind.
  cbn [emit modify]. rewrite H. cbn [mret M_ret ret]. unfold get.
  by rewrite Ho.
Qed.

Lemma create_order_resolved_nullish options order s :
  orders_create w options = inl order → nullish order = true →
  create_order w options s
  = order_failed (TypeError order "id") (called options s).
Proof.
  intros H Ho. unfold create_order, try_catch, mbind at 1 2 3, M_bind,
    bind at 1 2 3.
  cbn [emit modify]. rewrite H. cbn [mret M_ret ret]. unfold get at 1.
  by rewrite Ho.
Qed.

Lemma create_order_rejected options e s :
  orders_create w options = inr e →
  create_order w options s = order_failed e (called options s).
Proof.
  intros H. unfold create_order, try_catch, mbind at 1 2, M_bind, bind at 1 2.
  cbn [emit modify]. by rewrite H.
Qed.

Lemma place_order_resolved order :
  accepted w req →
  orders_create w (sent_options w req) = inl order → nullish order = false →
  place_order w req (constructed w)
  = (Return, answered (num 200) (normalized order) (ordered w req)).
Proof.
  intros [[[Hk _] _] _ _ Hc] H Ho. unfold place_order.
  rewrite (bind_normal _ _ _ _ _ (orderOptions_normal _ Hk Hc)).
  rewrite (bind_normal _ _ _ _ _ (create_order_resolved _ _ _ H Ho)).
  unfold mbind, M_bind, bind, get. by rewrite Ho.
Qed.

Lemma place_order_rejected e :
  accepted w req →
  orders_create w (sent_options w req) = inr e → nullish e = false →
  place_order w req (constructed w)
  = (Return, answered (failure_status e) (failure_body e) (ordered w req)).
Proof.
  intros [[[Hk _] _] _ _ Hc] H He. unfold place_order.
  rewrite (bind_normal _ _ _ _ _ (orderOptions_normal _ Hk Hc)).
  erewrite bind_return; [done|].
  rewrite (create_order_rejected _ _ _ H). by rewrite order_failed_defined.
Qed.

(** The log statement of lines 127-132 sits inside the [try]: an order
    that is undefined or null makes it throw, and the [catch] reports the
    [TypeError] as a failed creation. *)
Lemma place_order_resolved_nullish order :
  accepted w req →
  orders_create w (sent_options w req) = inl order → nullish order = true →
  place_order w req (constructed w)
  = (Return,
     answered (num 500) (failure_body (TypeError order "id")) (ordered w req)).
Proof.
  intros [[[Hk _] _] _ _ Hc] H Ho. unfold place_order.
  rewrite (bind_normal _ _ _ _ _ (orderOptions_normal _ Hk Hc)).
  erewrite bind_return; [done|].
  rewrite (create_order_resolved_nullish _ _ _ H Ho).
  by rewrite order_failed_defined.
Qed.

(** A rejection with undefined or null makes the [catch] itself throw. *)
Lemma place_order_rejected_nullish e :
  accepted w req →
  orders_create w (sent_options w req) = inr e → nullish e = true →
  place_order w req (constructed w)
  = (Throw (TypeError e "message"),
     State (Response cors_headers (num 200) NotSent) (ordered w req)).
Proof.
  intros [[[Hk _] _] _ _ Hc] H He. unfold place_order.
  rewrite (bind_normal _ _ _ _ _ (orderOptions_normal _ Hk Hc)).
  erewrite bind_throw; [done|].
  rewrite (create_order_rejected _ _ _ H). by rewrite order_failed_nullish.
Qed.

(** Whatever the gateway does with an accepted request, it was called
    once, with [sent_options], and what is thrown, if anything, is an
    error object. *)
Lemma place_order_outcome :
  accepted w req →
  ∃ r, place_order w req (constructed w) = (Return, State r (ordered w req))
       ∨ ∃ e, nullish e = false
              ∧ place_order w req (constructed w)
                = (Throw e, State r (ordered w req)).
Proof.
  intros Hv. destruct (orders_create w (sent_options w req)) as [order|e] eqn:H.
  - destruct (nullish order) eqn:Ho.
    + eexists. left. by apply place_order_resolved_nullish.
    + eexists. left. by apply place_order_resolved.
  - destruct (nullish e) eqn:He.
    + eexists. right. eexists. split; [|by apply place_order_rejected_nullish].
      by destruct e.
    + eexists. left. by apply place_order_rejected.
Qed.

(** *** The boundary *)

Lemma unexpected_defined e s :
  nullish e = false →
  unexpected w e s
  = (Return,
     State (Response (headers (res s)) (num 500) (Json (unexpected_body w e)))
           (trace s)).
Proof.
  intros He. unfold unexpected, unexpected_body, mbind, M_bind, bind, get.
  rewrite He. by destruct (is_string _ _).
Qed.

Lemma development_only :
  is_string (getenv w "NODE_ENV") "development"
  = bool_decide (env w !! "NODE_ENV" = Some "development").
Proof.
  unfold getenv, is_string. destruct (env w !! "NODE_ENV") as [s|]; [|done].
  apply bool_decide_ext. split; congruence.
Qed.

(** The guarded body returns, or throws a value that is not nullish. *)
Lemma guarded_outcome :
  ∃ s, guarded w req cors = (Return, s)
       ∨ ∃ e, nullish e = false ∧ guarded w req cors = (Throw e, s).
Proof.
  destruct configured_dec as [Hc|Hc];
    [|eexists; left; by apply guarded_missing_credentials].
  destruct (Razorpay_new w (client_options w)) as [initError|] eqn:Hn;
    [eexists; left; by eapply guarded_init_failed|].
  assert (credentials_ok w) as Hok by done.
  destruct (truthy (amount req)) eqn:Ha;
    [|eexists; left; by apply guarded_amount_required].
  destruct (out_of_bounds (amount req)) eqn:Hb;
    [eexists; left; by apply guarded_amount_invalid|].
  destruct (includes supportedCurrencies (currency req)) eqn:Hcur;
    [|eexists; left; by apply guarded_currency_unsupported].
  rewrite guarded_accepted by done.
  destruct place_order_outcome as [r Hr]; [done|].
  by exists (State r (ordered w req)).
Qed.

(** The handler always returns: nothing is thrown past its boundary. *)
Lemma run_total : ∃ s, run w req = (Return, s).
Proof.
  destruct (decide (method req = "OPTIONS")) as [Ho|Ho];
    [eexists; by apply run_options|].
  destruct (decide (method req = "POST")) as [Hp|Hp];
    [|eexists; by apply run_not_allowed].
  destruct guarded_outcome as [s [Hg|(e & He & Hg)]].
  - eexists. by apply run_returned.
  - eexists. rewrite (run_thrown _ _ Hp Hg). by apply unexpected_defined.
Qed.

(** An accepted POST request calls the gateway once, with [sent_options]. *)
Lemma final_accepted_calls :
  method req = "POST" → accepted w req →
  gateway_calls (final w req) = [sent_options w req].
Proof.
  intros Hp Ha.
  destruct (place_order_outcome Ha) as [r [Hr|(e & He & Hr)]];
    rewrite <- guarded_accepted in Hr by done.
  - by rewrite (final_returned _ Hp Hr).
  - erewrite final_of_run;
      [|rewrite (run_thrown _ _ Hp Hr); by apply unexpected_defined].
    done.
Qed.

Lemma lookup_spread target v k :
  spread target v !! k = overrides (own_props v !! k) (target !! k).
Proof.
  unfold spread. rewrite lookup_union.
  by destruct (own_props v !! k), (target !! k).
Qed.

(** The notes of [sent_options], key by key. *)
Lemma lookup_sent_notes k :
  sent_notes w req !! k
  = if bool_decide (k = "customer_phone") && supplies req "phone"
    then Some (prop (customer_details req) "phone")
    else if bool_decide (k = "customer_email") && supplies req "email"
    then Some (prop (customer_details req) "email")
    else overrides (own_props (order_metadata req) !! k)
           (overrides (own_props (notes req) !! k) (fixed_notes w !! k)).
Proof.
  unfold sent_notes, merged_notes.
  destruct (supplies req "phone"), (supplies req "email");
    rewrite ?lookup_insert, ?lookup_spread, ?andb_true_r, ?andb_false_r;
    repeat case_decide; subst;
    rewrite ?bool_decide_eq_true_2, ?bool_decide_eq_false_2 by done;
    done.
Qed.

End Runs.

(** ** Properties of the endpoint *)

Lemma sample_credentials_ok : credentials_ok sample_world.
Proof. repeat split; reflexivity. Qed.

Lemma sample_validated : validated sample_world sample_request.
Proof. repeat split; reflexivity. Qed.

(** *** The method gate *)

(** C6. A request whose method is neither POST nor OPTIONS is answered 405
    with the body [{error: "Method not allowed"}]; a request whose method
    is OPTIONS is answered 200 with no body. *)
Theorem method_gate w req :
  (method req ≠ "POST" → method req ≠ "OPTIONS" →
   statusCode (res (final w req)) = num 405
   ∧ payload (res (final w req))
     = Json (object [("error", VStr "Method not allowed")]))
  ∧ (method req = "OPTIONS" →
     statusCode (res (final w req)) = num 200
     ∧ payload (res (final w req)) = Ended).
Proof.
  split.
  - intros Hp Ho. by rewrite (final_of_run _ _ _ _ (run_not_allowed w req Ho Hp)).
  - intros Ho. by rewrite (final_of_run _ _ _ _ (run_options w req Ho)).
Qed.

Lemma method_gate_witness :
  (statusCode (res (final sample_world (Request "DELETE" VUndefined))) = num 405
   ∧ payload (res (final sample_world (Request "DELETE" VUndefined)))
     = Json (object [("error", VStr "Method not allowed")]))
  ∧ (statusCode (res (final sample_world (Request "OPTIONS" VUndefined))) = num 200
     ∧ payload (res (final sample_world (Request "OPTIONS" VUndefined))) = Ended).
Proof.
  split.
  - apply (method_gate sample_world (Request "DELETE" VUndefined)); discriminate.
  - apply (method_gate sample_world (Request "OPTIONS" VUndefined)); reflexivity.
Defined.

(** *** Credentials *)

(** C3. A POST request made while the key identifier is absent under both
    of its names, or while the key secret is absent, is answered 500 with
    error "Payment gateway not configured. Please contact support." and
    code "MISSING_CREDENTIALS", whatever its body, and nothing of the
    Razorpay package is called. *)
Theorem missing_credentials w req :
  method req = "POST" →
  (env w !! "VITE_RAZORPAY_KEY_ID" = None ∧ env w !! "RAZORPAY_KEY_ID" = None)
  ∨ env w !! "RAZORPAY_KEY_SECRET" = None →
  statusCode (res (final w req)) = num 500
  ∧ payload (res (final w req))
    = Json (object [("error", VStr "Payment gateway not configured. Please contact support.");
                    ("code", VStr "MISSING_CREDENTIALS")])
  ∧ trace (final w req) = [].
Proof.
  intros Hp Habsent.
  assert (¬ configured w) as Hc.
  { unfold configured, keyId, keySecret, log_or, getenv.
    destruct Habsent as [[-> ->]| ->]; cbn; intros [??]; done. }
  by rewrite (final_returned _ _ _ Hp (guarded_missing_credentials w req Hc)).
Qed.

Lemma missing_credentials_witness :
  statusCode (res (final keyless_world sample_request)) = num 500
  ∧ payload (res (final keyless_world sample_request))
    = Json (object [("error", VStr "Payment gateway not configured. Please contact support.");
                    ("code", VStr "MISSING_CREDENTIALS")])
  ∧ trace (final keyless_world sample_request) = [].
Proof.
  apply (missing_credentials keyless_world sample_request).
  - reflexivity.
  - right. reflexivity.
Defined.

(** *** Validation *)

(** C4. On a POST request with valid credentials whose amount is truthy
    but is not an integer, or is below 100, or is above 15000000, the
    handler answers 400 with the message that states the bounds and makes
    no gateway call; an integer amount from 100 to 15000000 inclusive
    passes the check: the handler goes on to the currency, and with a
    supported currency to the gateway. *)
Theorem amount_bounds w req :
  method req = "POST" → credentials_ok w → truthy (amount req) = true →
  (((∀ z, amount req ≠ num z)
    ∨ (∃ z, amount req = num z ∧ (z < 100 ∨ 15000000 < z))) →
   statusCode (res (final w req)) = num 400
   ∧ payload (res (final w req)) = Json invalid_amount
   ∧ gateway_calls (final w req) = [])
  ∧ ((∃ z, amount req = num z ∧ 100 ≤ z ≤ 15000000) →
     out_of_bounds (amount req) = false
     ∧ (includes supportedCurrencies (currency req) = false →
        payload (res (final w req)) = Json unsupported_currency)
     ∧ (includes supportedCurrencies (currency req) = true →
        gateway_calls (final w req) = [sent_options w req])).
Proof.
  intros Hp Hc Ht. split.
  - intros Hbad.
    assert (out_of_bounds (amount req) = true) as Hb.
    { apply not_false_iff_true. rewrite out_of_bounds_spec.
      intros (z & Hz & Hr). destruct Hbad as [Hn|(z' & Hz' & Hr')].
      - by apply (Hn z).
      - rewrite Hz in Hz'. apply num_inj in Hz'. lia. }
    by rewrite (final_returned _ _ _ Hp (guarded_amount_invalid w req Hc Ht Hb)).
  - intros Hgood%out_of_bounds_spec. split; [done|]. split; intros Hcur.
    + by rewrite (final_returned _ _ _ Hp
                    (guarded_currency_unsupported w req Hc Ht Hgood Hcur)).
    + by apply final_accepted_calls.
Qed.

Lemma amount_bounds_witness :
  (statusCode (res (final sample_world (post [("amount", num 99)]))) = num 400
   ∧ payload (res (final sample_world (post [("amount", num 99)])))
     = Json invalid_amount
   ∧ gateway_calls (final sample_world (post [("amount", num 99)])) = [])
  ∧ gateway_calls (final sample_world (post [("amount", num 100)]))
    = [sent_options sample_world (post [("amount", num 100)])].
Proof.
  split.
  - apply (amount_bounds sample_world (post [("amount", num 99)]));
      [reflexivity | exact sample_credentials_ok | reflexivity |].
    right. exists 99. split; [reflexivity | lia].
  - apply (amount_bounds sample_world (post [("amount", num 100)]));
      [reflexivity | exact sample_credentials_ok | reflexivity | | reflexivity].
    exists 100. split; [reflexivity | lia].
Defined.

(** C5. On a POST request with valid credentials and a valid amount whose
    supplied currency is not one of INR, USD, EUR, the handler answers 400
    with the message that lists the supported currencies and makes no
    gateway call. The supplied value itself is what is looked up. *)
Theorem currency_whitelist w req :
  method req = "POST" → credentials_ok w →
  truthy (amount req) = true → out_of_bounds (amount req) = false →
  prop (fields req) "currency" ≠ VUndefined →
  prop (fields req) "currency" ∉ supportedCurrencies →
  statusCode (res (final w req)) = num 400
  ∧ payload (res (final w req)) = Json unsupported_currency
  ∧ gateway_calls (final w req) = [].
Proof.
  intros Hp Hc Ht Hb Hsupplied Hnot.
  assert (currency req = prop (fields req) "currency") as Hcur.
  { unfold currency, prop_default. by destruct (prop (fields req) "currency"). }
  assert (includes supportedCurrencies (currency req) = false) as Hinc.
  { apply not_true_iff_false. intros H%supported_string.
    apply Hnot. rewrite <- Hcur. unfold supportedCurrencies.
    rewrite !elem_of_cons. tauto. }
  by rewrite (final_returned _ _ _ Hp
                (guarded_currency_unsupported w req Hc Ht Hb Hinc)).
Qed.

Lemma currency_whitelist_witness :
  statusCode (res (final sample_world
                     (post [("amount", num 50000); ("currency", VStr "inr")])))
  = num 400
  ∧ payload (res (final sample_world
                    (post [("amount", num 50000); ("currency", VStr "inr")])))
    = Json unsupported_currency
  ∧ gateway_calls (final sample_world
                     (post [("amount", num 50000); ("currency", VStr "inr")]))
    = [].
Proof.
  apply (currency_whitelist sample_world
           (post [("amount", num 50000); ("currency", VStr "inr")]));
    [reflexivity | exact sample_credentials_ok | reflexivity | reflexivity
    | discriminate |].
  unfold supportedCurrencies. rewrite !elem_of_cons, elem_of_nil.
  intros [H|[H|[H|[]]]]; discriminate H.
Defined.

(** *** The gateway's answer *)

(** C1. When a POST request passes the credential, amount and currency
    validations and the gateway creates the order, the handler answers 200
    with a JSON body that has exactly the six fields id, amount, currency,
    receipt, status and created_at, each read off the gateway's order; no
    other field of the order is copied. *)
Theorem order_created w req order :
  validated w req →
  orders_create w (sent_options w req) = inl order → nullish order = false →
  statusCode (res (final w req)) = num 200
  ∧ ∃ body, payload (res (final w req)) = Json (VObj body)
            ∧ dom body = order_fields
            ∧ ∀ k, k ∈ order_fields → body !! k = Some (prop order k).
Proof.
  intros [Hp Ha] Hcreated Horder.
  rewrite (final_returned _ _ _ Hp
             (eq_trans (guarded_accepted w req Ha)
                       (place_order_resolved w req order Ha Hcreated Horder))).
  split; [done|]. eexists. split; [done|]. split; [done|].
  intros k. unfold order_fields. rewrite !elem_of_union, !elem_of_singleton.
  intros [[[[[->| ->]| ->]| ->]| ->]| ->]; done.
Qed.

Lemma order_created_witness :
  statusCode (res (final sample_world sample_request)) = num 200
  ∧ ∃ body, payload (res (final sample_world sample_request)) = Json (VObj body)
            ∧ dom body = order_fields
            ∧ ∀ k, k ∈ order_fields → body !! k = Some (prop sample_order k).
Proof.
  apply (order_created sample_world sample_request);
    [exact sample_validated | reflexivity | reflexivity].
Defined.

(** C7. When the gateway call of a validated POST request fails, the
    response status is the error's [statusCode] when it has one and 500
    otherwise; the error message is the error's [error.description] when it
    has one, else its [message] when it has one, else "Failed to create
    payment order"; the code is the error's [error.code] when it has one,
    else "RAZORPAY_ORDER_FAILED". A property counts as there when its
    value is truthy. *)
Theorem order_failure w req e :
  validated w req →
  orders_create w (sent_options w req) = inr e → nullish e = false →
  statusCode (res (final w req))
  = (if truthy (prop e "statusCode") then prop e "statusCode" else num 500)
  ∧ payload (res (final w req))
    = Json (object
        [("error",
          if truthy (prop e "error") && truthy (prop (prop e "error") "description")
          then prop (prop e "error") "description"
          else if truthy (prop e "message") then prop e "message"
          else VStr "Failed to create payment order");
         ("code",
          if truthy (opt_prop (prop e "error") "code")
          then opt_prop (prop e "error") "code"
          else VStr "RAZORPAY_ORDER_FAILED")]).
Proof.
  intros [Hp Ha] Hfailed He.
  rewrite (final_returned _ _ _ Hp
             (eq_trans (guarded_accepted w req Ha)
                       (place_order_rejected w req e Ha Hfailed He))).
  split; [done|]. cbn [answered res payload].
  unfold failure_body, failure_message, failure_code, log_and, log_or.
  destruct (truthy (prop e "error")) eqn:Herr; cbn [andb]; by rewrite ?Herr.
Qed.

Lemma order_failure_witness :
  statusCode (res (final (refusing_world invalid_currency) sample_request))
  = num 400
  ∧ payload (res (final (refusing_world invalid_currency) sample_request))
    = Json (object [("error", VStr "Invalid currency");
                    ("code", VStr "RAZORPAY_ORDER_FAILED")]).
Proof.
  apply (order_failure (refusing_world invalid_currency) sample_request
           invalid_currency);
    [repeat split; reflexivity | reflexivity | reflexivity].
Defined.

(** *** What is sent to the gateway *)

(** C2. On a validated POST request the notes sent to the gateway are
    built in this order: the fixed keys source, environment, created_at;
    over them the caller's notes; over those the caller's order_metadata;
    last customer_email and customer_phone, each when customer_details
    supplies it; a later write wins. In particular a key that notes and
    order_metadata both define is sent with the order_metadata value,
    unless it is one that customer_details then writes. *)
Theorem notes_merge_order w req :
  validated w req →
  ∃ options sent,
    gateway_calls (final w req) = [options]
    ∧ prop options "notes" = VObj sent
    ∧ (∀ k,
         sent !! k
         = if bool_decide (k = "customer_phone") && supplies req "phone"
           then Some (prop (customer_details req) "phone")
           else if bool_decide (k = "customer_email") && supplies req "email"
           then Some (prop (customer_details req) "email")
           else overrides (own_props (order_metadata req) !! k)
                  (overrides (own_props (notes req) !! k)
                             (fixed_notes w !! k)))
    ∧ (∀ k from_notes from_metadata,
         own_props (notes req) !! k = Some from_notes →
         own_props (order_metadata req) !! k = Some from_metadata →
         ¬ (k = "customer_email" ∧ supplies req "email" = true) →
         ¬ (k = "customer_phone" ∧ supplies req "phone" = true) →
         sent !! k = Some from_metadata).
Proof.
  intros [Hp Ha]. exists (sent_options w req), (sent_notes w req).
  split; [by apply final_accepted_calls|]. split; [done|].
  split; [apply lookup_sent_notes|].
  intros k vn vm Hn Hm Hemail Hphone. rewrite lookup_sent_notes, Hm.
  destruct (bool_decide_reflect (k = "customer_phone")) as [->|_].
  - destruct (supplies req "phone"); [by destruct Hphone|done].
  - destruct (bool_decide_reflect (k = "customer_email")) as [->|_]; [|done].
    destruct (supplies req "email"); [by destruct Hemail|done].
Qed.

Lemma notes_merge_order_witness :
  ∃ options sent,
    gateway_calls (final sample_world campaign_request) = [options]
    ∧ prop options "notes" = VObj sent
    ∧ sent !! "campaign" = Some (VStr "from metadata")
    ∧ sent !! "table" = Some (VStr "7")
    ∧ sent !! "source" = Some (VStr "3rd-client")
    ∧ sent !! "environment" = Some (VStr "TEST")
    ∧ sent !! "customer_email" = Some (VStr "a@b.c")
    ∧ sent !! "customer_phone" = None.
Proof.
  destruct (notes_merge_order sample_world campaign_request)
    as (options & sent & H1 & H2 & H3 & H4);
    [repeat split; reflexivity|].
  exists options, sent. split; [exact H1|]. split; [exact H2|].
  split; [|by rewrite !H3].
  apply (H4 "campaign" (VStr "from notes") (VStr "from metadata"));
    [reflexivity | reflexivity | |]; intros [H _]; discriminate H.
Defined.

(** C10. On a POST request that passes the amount and currency
    validations the gateway is sent the amount and the currency exactly as
    the caller supplied them: the amount is an integer, which rounding
    leaves alone, and the currency is one of INR, USD, EUR, which
    upper-casing leaves alone. *)
Theorem amount_currency_forwarded w req :
  validated w req →
  ∃ options,
    gateway_calls (final w req) = [options]
    ∧ prop options "amount" = amount req
    ∧ prop options "currency" = currency req.
Proof.
  intros [Hp Ha]. exists (sent_options w req).
  split; [by apply final_accepted_calls|].
  destruct Ha as [_ _ (z & Hz & _)%out_of_bounds_spec Hcur%supported_string].
  split.
  - change (prop (sent_options w req) "amount") with (Math_round (amount req)).
    rewrite Hz. apply Math_round_num.
  - change (prop (sent_options w req) "currency") with (sent_currency req).
    unfold sent_currency. by destruct Hcur as [->|[->| ->]].
Qed.

Lemma amount_currency_forwarded_witness :
  ∃ options,
    gateway_calls (final sample_world sample_request) = [options]
    ∧ prop options "amount" = num 50000
    ∧ prop options "currency" = VStr "INR".
Proof.
  apply (amount_currency_forwarded sample_world sample_request).
  exact sample_validated.
Defined.

(** *** Generated receipts *)

(** C8, as stated, fails: two calls in the same millisecond whose random
    draws differ only past the nine characters that are kept generate the
    same receipt. *)
Lemma generated_receipts_collide :
  receipt bare_request = VUndefined
  ∧ Date_now (drawing "0.4fzyo82mvyr") = Date_now (drawing "0.4fzyo82mv9k")
  ∧ receipts_sent (drawing "0.4fzyo82mvyr") bare_request
    = [VStr "rcpt_1700000000000_4fzyo82mv"]
  ∧ receipts_sent (drawing "0.4fzyo82mv9k") bare_request
    = [VStr "rcpt_1700000000000_4fzyo82mv"].
Proof.
  assert (∀ r, gateway_calls (final (drawing r) bare_request)
               = [sent_options (drawing r) bare_request]) as Hcalls
    by (intros r; apply final_accepted_calls; repeat split; reflexivity).
  unfold receipts_sent. rewrite !Hcalls.
  repeat split; reflexivity.
Qed.

(** C8, amended. When the receipt is left out (or falsy) the handler sends
    the gateway a generated receipt ["rcpt_" + Date.now() + "_" + suffix],
    the suffix being the nine characters after ["0."] in the base-36
    rendering of a random draw; two calls in the same millisecond generate
    distinct receipts exactly when their suffixes differ. *)
Theorem generated_receipts w1 w2 req1 req2 :
  validated w1 req1 → validated w2 req2 →
  truthy (receipt req1) = false → truthy (receipt req2) = false →
  Date_now w1 = Date_now w2 →
  ∃ r1 r2,
    receipts_sent w1 req1 = [VStr r1] ∧ receipts_sent w2 req2 = [VStr r2]
    ∧ r1 = "rcpt_" +:+ pretty (Date_now w1) +:+ "_"
           +:+ substr (Math_random_36 w1) 2 9
    ∧ r2 = "rcpt_" +:+ pretty (Date_now w2) +:+ "_"
           +:+ substr (Math_random_36 w2) 2 9
    ∧ (r1 ≠ r2
       ↔ substr (Math_random_36 w1) 2 9 ≠ substr (Math_random_36 w2) 2 9).
Proof.
  intros [Hp1 Ha1] [Hp2 Ha2] Hr1 Hr2 Hnow.
  exists (generated_receipt w1), (generated_receipt w2).
  unfold receipts_sent. rewrite !final_accepted_calls by done.
  cbn [fmap list_fmap].
  change (prop (sent_options w1 req1) "receipt") with (sent_receipt w1 req1).
  change (prop (sent_options w2 req2) "receipt") with (sent_receipt w2 req2).
  unfold sent_receipt, log_or. rewrite Hr1, Hr2.
  repeat split; try done; unfold generated_receipt; rewrite Hnow.
  - intros Hne Hs. apply Hne. by rewrite Hs.
  - intros Hne Hr. apply Hne. by repeat apply String.app_inj in Hr.
Qed.

Lemma generated_receipts_witness :
  ∃ r1 r2,
    receipts_sent (drawing "0.4fzyo82mvyr") bare_request = [VStr r1]
    ∧ receipts_sent (drawing "0.9x1c0ffee42") bare_request = [VStr r2]
    ∧ r1 = "rcpt_1700000000000_4fzyo82mv"
    ∧ r2 = "rcpt_1700000000000_9x1c0ffee"
    ∧ (r1 ≠ r2 ↔ "4fzyo82mv" ≠ "9x1c0ffee").
Proof.
  apply (generated_receipts (drawing "0.4fzyo82mvyr") (drawing "0.9x1c0ffee42")
           bare_request bare_request);
    [repeat split; reflexivity | repeat split; reflexivity
    | reflexivity | reflexivity | reflexivity].
Defined.

(** *** The handler boundary *)

(** C9, as stated, fails: an exception of the client's constructor does
    not arise from the gateway call, and it is answered with the code
    "RAZORPAY_INIT_FAILED", by the [catch] of lines 54-60. *)
Lemma construction_failure_is_not_unexpected :
  Razorpay_new unconstructible_world (client_options unconstructible_world)
  = Some mandatory_key
  ∧ gateway_calls (final unconstructible_world sample_request) = []
  ∧ statusCode (res (final unconstructible_world sample_request)) = num 500
  ∧ payload (res (final unconstructible_world sample_request))
    = Json (object [("error", VStr "Payment gateway initialization failed");
                    ("code", VStr "RAZORPAY_INIT_FAILED")])
  ∧ payload (res (final unconstructible_world sample_request))
    ≠ Json (unexpected_body unconstructible_world mandatory_key).
Proof. repeat split; done. Qed.

(** C9, amended. The handler never throws past its boundary: every
    invocation returns. An exception of the client's constructor is
    answered 500 with the code "RAZORPAY_INIT_FAILED". Any exception that
    leaves the guarded body (one raised outside the constructor's [try]
    and outside the gateway call's [try]) is caught at the boundary and
    answered 500 with the code "UNEXPECTED_ERROR"; the exception's own
    message is in the response only when NODE_ENV is "development", and
    the fixed message "An unexpected error occurred" otherwise. *)
Theorem boundary w req :
  (∃ s, run w req = (Return, s))
  ∧ (∀ initError,
       method req = "POST" → configured w →
       Razorpay_new w (client_options w) = Some initError →
       statusCode (res (final w req)) = num 500
       ∧ payload (res (final w req))
         = Json (object [("error", VStr "Payment gateway initialization failed");
                         ("code", VStr "RAZORPAY_INIT_FAILED")]))
  ∧ (∀ e s,
       method req = "POST" → guarded w req cors = (Throw e, s) →
       statusCode (res (final w req)) = num 500
       ∧ payload (res (final w req))
         = Json (object
             [("error", VStr "Internal server error");
              ("code", VStr "UNEXPECTED_ERROR");
              ("message",
               if bool_decide (env w !! "NODE_ENV" = Some "development")
               then prop e "message"
               else VStr "An unexpected error occurred")])
       ∧ trace (final w req) = trace s).
Proof.
  split; [apply run_total|]. split.
  - intros initError Hp Hc Hnew.
    by rewrite (final_returned _ _ _ Hp (guarded_init_failed w req _ Hc Hnew)).
  - intros e s Hp Hthrown.
    assert (nullish e = false) as He.
    { destruct (guarded_outcome w req) as [s' [Hg|(e' & He' & Hg)]];
        rewrite Hthrown in Hg; by simplify_eq. }
    erewrite final_of_run;
      [|rewrite (run_thrown _ _ _ _ Hp Hthrown); by apply unexpected_defined].
    unfold unexpected_body. by rewrite development_only.
Qed.

Lemma boundary_witness :
  (statusCode (res (final unconstructible_world sample_request)) = num 500
   ∧ payload (res (final unconstructible_world sample_request))
     = Json (object [("error", VStr "Payment gateway initialization failed");
                     ("code", VStr "RAZORPAY_INIT_FAILED")]))
  ∧ (statusCode (res (final (refusing_world VUndefined) sample_request)) = num 500
     ∧ payload (res (final (refusing_world VUndefined) sample_request))
       = Json (object [("error", VStr "Internal server error");
                       ("code", VStr "UNEXPECTED_ERROR");
                       ("message", VStr "An unexpected error occurred")])
     ∧ trace (final (refusing_world VUndefined) sample_request)
       = ordered sample_world sample_request).
Proof.
  split.
  - eapply (proj1 (proj2 (boundary unconstructible_world sample_request)));
      [reflexivity | split; reflexivity | reflexivity].
  - apply (proj2 (proj2 (boundary (refusing_world VUndefined) sample_request))
             (TypeError VUndefined "message")
             (State (Response cors_headers (num 200) NotSent)
                    (ordered sample_world sample_request)));
      reflexivity.
Defined.
